(** * Monte Carlo simulation of the Monty Hall problem

    A shallow embedding of [montyhall/montyhall.py]: the [Simulation]
    class with its methods [__init__], [sample] and [plot_results], and the
    tail of the [__main__] driver that derives the two win percentages.

    Python integers are unbounded, so they are [Z].  One-dimensional numpy
    arrays are lists, indexed with stdpp's lookup [l !! i].  The methods
    mutate the object and numpy's global generator and may raise, so they
    live in a state-and-exception monad over a [world] that holds both; a
    raise keeps every mutation made before it, as in Python. *)

From Stdlib Require Import ZArith QArith.
From stdpp Require Import base numbers list strings.

Local Open Scope Z_scope.

(** ** Exceptions and the outcome of a call *)

Inductive exn : Type :=
| ValueError                      (* numpy: negative dimensions are not allowed *)
| ZeroDivisionError               (* Python: int / int with a zero divisor *)
| Exception (msg : string).       (* raise Exception(msg) *)

Inductive outcome (A : Type) : Type :=
| Return (a : A)
| Raise (e : exn).

Arguments Return {A} a.
Arguments Raise {A} e.

(** ** numpy arrays *)

(** [np.ndarray([])] allocates a zero-dimensional array: one cell whose
    content is whatever the memory held.  [Cell x] is such an array,
    [Vector xs] a one-dimensional one. *)
Inductive ndarray (A : Type) : Type :=
| Cell (x : A)
| Vector (xs : list A).

Arguments Cell {A} x.
Arguments Vector {A} xs.

(** [a == c] for an integer array and a scalar. *)
Definition np_eq_scalar (a : list Z) (c : Z) : list bool :=
  (λ x, x =? c) <$> a.

(** [a == b] for two integer arrays of the same shape. *)
Definition np_eq (a b : list Z) : list bool :=
  zip_with Z.eqb a b.

(** [a == c] for a boolean array and a boolean scalar. *)
Definition np_eq_bool (a : list bool) (c : bool) : list bool :=
  (λ x, eqb x c) <$> a.

(** [np.ones(n).astype(int)] for [0 <= n]. *)
Definition np_ones (n : Z) : list Z :=
  replicate (Z.to_nat n) 1.

(** [np.where(cond, x, y)] with a scalar [x] broadcast against the arrays
    [cond] and [y], which have the same shape. *)
Definition np_where (cond : list bool) (x : Z) (y : list Z) : list Z :=
  zip_with (λ (c : bool) v, if c then x else v) cond y.

(** [a[mask]] for a boolean [mask] of the shape of [a]: the entries of [a]
    at the positions where [mask] is true. *)
Fixpoint np_mask {A : Type} (a : list A) (mask : list bool) : list A :=
  match a, mask with
  | x :: a', m :: mask' => if m then x :: np_mask a' mask' else np_mask a' mask'
  | _, _ => []
  end.

(** [len(a)] as a Python integer. *)
Definition len {A : Type} (a : list A) : Z := Z.of_nat (length a).

(** [a / b] on Python integers: true division, here with the exact
    rational quotient in place of its nearest double.  Operands too large
    for a double, on which Python raises [OverflowError], are outside the
    model, and so is the rounding of the quotient. *)
Definition truediv (a b : Z) : outcome Q :=
  if b =? 0 then Raise ZeroDivisionError
  else Return (inject_Z a / inject_Z b)%Q.

(** ** The object *)

Record Simulation : Type := mkSimulation {
  samples : Z;
  winning_doors : ndarray Z;
  win_if_staying : ndarray bool;
  win_if_switching : ndarray bool;
  num_wins_if_staying : Z;
  num_wins_if_switching : Z
}.

(** The locals of one call of [sample], kept so that the per-trial vectors
    can be spoken about; the method itself returns [None]. *)
Record batch : Type := mkBatch {
  b_winning_doors : list Z;
  b_switch_doors : list Z;
  b_win_if_staying : list bool;
  b_win_if_switching : list bool
}.

(** The contents of the three cells that [__init__] allocates without
    initialising them. *)
Record uninit : Type := mkUninit {
  u_winning_doors : Z;
  u_win_if_staying : bool;
  u_win_if_switching : bool
}.

(** [Simulation.__init__]. *)
Definition __init__ (u : uninit) : Simulation :=
  {| samples := 0;
     winning_doors := Cell (u_winning_doors u);
     win_if_staying := Cell (u_win_if_staying u);
     win_if_switching := Cell (u_win_if_switching u);
     num_wins_if_staying := 0;
     num_wins_if_switching := 0 |}.

(** The three in-place updates of [sample]. *)
Definition add_samples (n : Z) (s : Simulation) : Simulation :=
  mkSimulation (samples s + n) (winning_doors s) (win_if_staying s)
    (win_if_switching s) (num_wins_if_staying s) (num_wins_if_switching s).

Definition add_wins_if_staying (k : Z) (s : Simulation) : Simulation :=
  mkSimulation (samples s) (winning_doors s) (win_if_staying s)
    (win_if_switching s) (num_wins_if_staying s + k) (num_wins_if_switching s).

Definition add_wins_if_switching (k : Z) (s : Simulation) : Simulation :=
  mkSimulation (samples s) (winning_doors s) (win_if_staying s)
    (win_if_switching s) (num_wins_if_staying s) (num_wins_if_switching s + k).

(** [len(v[v == True])]: the number of true entries of a boolean vector. *)
Definition count_true (v : list bool) : Z :=
  len (np_mask v (np_eq_bool v true)).

(** ** The world and the monad of method calls

    numpy's generator is not part of the repository: its state is a type
    parameter [rng]. *)

(** The object together with numpy's global generator. *)
Record world (rng : Type) : Type := mkWorld {
  self : Simulation;
  np_random : rng
}.

Arguments mkWorld {rng} self np_random.
Arguments self {rng} w.
Arguments np_random {rng} w.

Definition M (rng A : Type) : Type := world rng → outcome A * world rng.

Definition ret {rng A} (a : A) : M rng A := λ w, (Return a, w).

Definition bind {rng A B} (m : M rng A) (k : A → M rng B) : M rng B :=
  λ w, match m w with
       | (Return a, w') => k a w'
       | (Raise e, w') => (Raise e, w')
       end.

Definition raise {rng A} (e : exn) : M rng A := λ w, (Raise e, w).

Definition update {rng} (f : Simulation → Simulation) : M rng unit :=
  λ w, (Return tt, mkWorld (f (self w)) (np_random w)).

Definition read {rng A} (f : Simulation → A) : M rng A :=
  λ w, (Return (f (self w)), w).

Definition lift {rng A} (o : outcome A) : M rng A := λ w, (o, w).

Notation "x <- m ;; k" := (bind m (λ x, k))
  (at level 100, m at next level, right associativity).
Notation "m ;;; k" := (bind m (λ _, k))
  (at level 100, right associativity).

(** [Simulation.plot_results]; the bar chart itself belongs to matplotlib
    and leaves the world alone. *)
Definition plot_results {rng} : M rng unit :=
  n <- read samples ;;
  if 0 <? n then ret tt
  else raise (Exception "No results to plot. Must sample first.").

(** The tail of the driver: [sim.plot_results()] and then the two printed
    numbers, [wins / sim.samples * 100.]. *)
Definition report {rng} : M rng (Q * Q) :=
  plot_results ;;;
  stay <- read num_wins_if_staying ;;
  total <- read samples ;;
  p_stay <- lift (truediv stay total) ;;
  switch <- read num_wins_if_switching ;;
  total' <- read samples ;;
  p_switch <- lift (truediv switch total') ;;
  ret ((p_stay * 100)%Q, (p_switch * 100)%Q).

(** The number of true entries of a boolean vector, counted directly. *)
Definition trues (v : list bool) : Z :=
  Z.of_nat (count_occ bool_dec v true).

(** Lines 43 to 46 of [sample] as a function of the prize doors drawn and
    of the host's draw. *)
Definition trial_vectors (n : Z) (winning_doors : list Z) (host : Z) : batch :=
  let switch_doors :=
    np_where (np_eq_scalar winning_doors 1) host winning_doors in
  mkBatch winning_doors switch_doors
    (np_eq winning_doors (np_ones n))
    (np_eq winning_doors switch_doors).

(** Lines 36, 48 and 49 of [sample]: the fold of one batch of outcome
    vectors into the running totals. *)
Definition fold (n : Z) (stay switch : list bool) (s : Simulation) : Simulation :=
  add_wins_if_switching (count_true switch)
    (add_wins_if_staying (count_true stay) (add_samples n s)).

(** The state of the totals that the class docstring describes: counts of
    wins that add up to the number of simulations run. *)
Definition tally_ok (s : Simulation) : Prop :=
  0 ≤ num_wins_if_staying s ∧
  0 ≤ num_wins_if_switching s ∧
  num_wins_if_staying s + num_wins_if_switching s = samples s.

(** Pure accumulation, in the words of the fold contract: [s'] is [s] with
    [n] more samples and as many more wins per strategy as the outcome
    vector of that strategy has true entries; nothing else differs. *)
Definition accumulated (n : Z) (stay switch : list bool)
    (s s' : Simulation) : Prop :=
  samples s' = samples s + n ∧
  num_wins_if_staying s' = num_wins_if_staying s + trues stay ∧
  num_wins_if_switching s' = num_wins_if_switching s + trues switch ∧
  winning_doors s' = winning_doors s ∧
  win_if_staying s' = win_if_staying s ∧
  win_if_switching s' = win_if_switching s.

(** Two batches one after the other. *)
Definition batch_app (b1 b2 : batch) : batch :=
  mkBatch (b_winning_doors b1 ++ b_winning_doors b2)
    (b_switch_doors b1 ++ b_switch_doors b2)
    (b_win_if_staying b1 ++ b_win_if_staying b2)
    (b_win_if_switching b1 ++ b_win_if_switching b2).

(** ** A generator that replays a tape

    Each draw consumes one raw word of the tape and reduces it into
    [lo, hi); an exhausted tape keeps answering [lo]. *)
Definition tape_randint (lo hi : Z) (t : list Z) : Z * list Z :=
  match t with
  | [] => (lo, [])
  | x :: t' => (lo + x mod (hi - lo), t')
  end.

Definition no_junk : uninit := mkUninit 0 false false.

(** A fresh object next to a tape. *)
Definition fresh (t : list Z) : world (list Z) :=
  mkWorld (__init__ no_junk) t.

(** Raw words for the prize doors 1, 2, 3, 1, 2 and a host's draw of 3. *)
Definition tape_five : list Z := [0; 1; 2; 0; 1; 1].

(** Raw words for a batch of 10 with 3 prizes behind door 1, its host's
    draw, a batch of 20 with 6 prizes behind door 1, and its host's draw. *)
Definition tape_thirty : list Z :=
  [0; 1; 2; 0; 1; 2; 0; 1; 2; 1] ++ [0] ++
  [0; 1; 2; 0; 1; 2; 0; 1; 2; 0; 1; 2; 0; 1; 2; 0; 1; 2; 1; 2] ++ [1].



(** An object in the middle of its life, next to a tape. *)
Definition used (t : list Z) : world (list Z) :=
  mkWorld (mkSimulation 7 (Cell 3) (Cell true) (Cell false) 3 4) t.

(** ** Sampling over an arbitrary generator

    The scalar draw [randint lo hi] returns an integer of [lo, hi) and the
    advanced generator state. *)

Section WithGenerator.

Context {rng : Type}.
Variable randint : Z → Z → rng → Z * rng.

Hypothesis randint_range :
  ∀ lo hi g, lo < hi → lo ≤ (randint lo hi g).1 < hi.

(** [size] successive scalar draws, first draw first. *)
Fixpoint draws (lo hi : Z) (size : nat) (g : rng) : list Z * rng :=
  match size with
  | O => ([], g)
  | S size' =>
      let (x, g1) := randint lo hi g in
      let (xs, g2) := draws lo hi size' g1 in
      (x :: xs, g2)
  end.

(** [np.random.randint(lo, hi)]. *)
Definition randint_scalar (lo hi : Z) : M rng Z :=
  λ w, let (x, g) := randint lo hi (np_random w) in
       (Return x, mkWorld (self w) g).

(** [np.random.randint(lo, hi, n)]: a negative size is refused before
    anything is drawn.  numpy also refuses a size that it cannot represent
    or allocate; such sizes are outside the model, which draws for every
    [0 <= n]. *)
Definition randint_array (lo hi n : Z) : M rng (list Z) :=
  λ w, if n <? 0 then (Raise ValueError, w)
       else let (xs, g) := draws lo hi (Z.to_nat n) (np_random w) in
            (Return xs, mkWorld (self w) g).

(** [Simulation.sample].  The method returns [None]; the model hands back
    the locals of the call. *)
Definition sample (n : Z) : M rng batch :=
  update (add_samples n) ;;;
  winning_doors <- randint_array 1 4 n ;;
  host <- randint_scalar 2 4 ;;
  let switch_doors :=
    np_where (np_eq_scalar winning_doors 1) host winning_doors in
  let win_if_staying := np_eq winning_doors (np_ones n) in
  let win_if_switching := np_eq winning_doors switch_doors in
  update (add_wins_if_staying (count_true win_if_staying)) ;;;
  update (add_wins_if_switching (count_true win_if_switching)) ;;;
  ret (mkBatch winning_doors switch_doors win_if_staying win_if_switching).

(** A run of calls [sample(n)] for the sizes of [ns], in order; it stops at
    the first call that raises. *)
Fixpoint sample_all (ns : list Z) : M rng unit :=
  match ns with
  | [] => ret tt
  | n :: ns' => sample n ;;; sample_all ns'
  end.

(** The driver: a new object, one batch of a million trials, the report. *)
Definition main (u : uninit) : M rng (Q * Q) :=
  update (λ _, __init__ u) ;;;
  sample 1000000 ;;;
  report.

(** Unfolds the plumbing of the monad. *)
Ltac unfold_monad := unfold bind, update, read, ret, raise, lift.

(** ** The outcome vectors *)

Lemma count_true_trues v : count_true v = trues v.
Proof.
  unfold count_true, trues, len. f_equal.
  induction v as [|x v IH]; [done|].
  destruct x; cbn [np_eq_bool fmap list_fmap np_mask eqb length count_occ].
  - destruct (bool_dec true true); [|done]. f_equal. exact IH.
  - destruct (bool_dec false true); [done|]. exact IH.
Qed.

Lemma trues_app v1 v2 : trues (v1 ++ v2) = trues v1 + trues v2.
Proof. unfold trues. rewrite count_occ_app. lia. Qed.

Lemma trues_bounds v : 0 ≤ trues v ≤ len v.
Proof.
  unfold trues, len. pose proof (count_occ_bound bool_dec true v). lia.
Qed.

Lemma trues_complement {A} (f : A → bool) (l : list A) :
  trues (f <$> l) + trues ((λ x, negb (f x)) <$> l) = len l.
Proof.
  unfold trues, len. induction l as [|x l IH]; [done|].
  cbn [fmap list_fmap count_occ length].
  destruct (f x); cbn [negb];
    destruct (bool_dec true true); destruct (bool_dec false true);
    try done; lia.
Qed.

Lemma stay_vector n wd host :
  length wd = Z.to_nat n →
  b_win_if_staying (trial_vectors n wd host) = (λ p, p =? 1) <$> wd.
Proof.
  intros Hlen. simpl. unfold np_eq, np_ones.
  by rewrite zip_with_replicate_r_eq.
Qed.

Lemma switch_doors_vector n wd host :
  b_switch_doors (trial_vectors n wd host)
  = (λ p, if p =? 1 then host else p) <$> wd.
Proof.
  simpl. unfold np_where, np_eq_scalar.
  by rewrite zip_with_fmap_l, zip_with_diag.
Qed.

Lemma switch_vector_raw n wd host :
  b_win_if_switching (trial_vectors n wd host)
  = (λ p, p =? (if p =? 1 then host else p)) <$> wd.
Proof.
  pose proof (switch_doors_vector n wd host) as Hsd. simpl in *.
  rewrite Hsd. unfold np_eq. by rewrite zip_with_fmap_r, zip_with_diag.
Qed.

Lemma switch_vector n wd host :
  host ≠ 1 →
  b_win_if_switching (trial_vectors n wd host) = (λ p, negb (p =? 1)) <$> wd.
Proof.
  intros Hh. rewrite switch_vector_raw. apply list_fmap_ext.
  intros i p _. cbv beta. destruct (Z.eqb_spec p 1) as [->|Hp]; cbn [negb].
  - apply Z.eqb_neq. congruence.
  - apply Z.eqb_refl.
Qed.

(** ** The draws *)

Lemma draws_length lo hi size g : length (draws lo hi size g).1 = size.
Proof.
  revert g. induction size as [|size IH]; intros g; simpl; [done|].
  destruct (randint lo hi g) as [x g1]. specialize (IH g1).
  destruct (draws lo hi size g1) as [xs g2]. simpl in *. by rewrite IH.
Qed.

Lemma draws_range lo hi size g :
  lo < hi → Forall (λ x, lo ≤ x < hi) (draws lo hi size g).1.
Proof using randint_range.
  intros Hlt. revert g. induction size as [|size IH]; intros g; simpl.
  - constructor.
  - pose proof (randint_range lo hi g Hlt) as Hx.
    destruct (randint lo hi g) as [x g1]. specialize (IH g1).
    destruct (draws lo hi size g1) as [xs g2]. simpl in *. by constructor.
Qed.

(** ** What one call of [sample] does *)

Lemma sample_negative n w :
  n < 0 →
  sample n w
  = (Raise ValueError, mkWorld (add_samples n (self w)) (np_random w)).
Proof.
  intros Hn. unfold sample, randint_array. unfold_monad.
  cbn [self np_random]. destruct (Z.ltb_spec n 0); [done|lia].
Qed.

Lemma sample_nonnegative n w :
  0 ≤ n →
  sample n w
  = let dr := draws 1 4 (Z.to_nat n) (np_random w) in
    let h := randint 2 4 dr.2 in
    let b := trial_vectors n dr.1 h.1 in
    (Return b,
     mkWorld (fold n (b_win_if_staying b) (b_win_if_switching b) (self w)) h.2).
Proof.
  intros Hn. unfold sample, randint_array, randint_scalar. unfold_monad.
  cbn [self np_random].
  destruct (Z.ltb_spec n 0); [lia|].
  destruct (draws 1 4 (Z.to_nat n) (np_random w)) as [wd g1].
  cbn [self np_random fst snd].
  destruct (randint 2 4 g1) as [host g2]. reflexivity.
Qed.

(** A call that returns was given a size that is not negative, and its
    batch and final world are those of [sample_nonnegative]. *)
Lemma sample_returns n w b w' :
  sample n w = (Return b, w') →
  0 ≤ n ∧
  b = trial_vectors n (draws 1 4 (Z.to_nat n) (np_random w)).1
        (randint 2 4 (draws 1 4 (Z.to_nat n) (np_random w)).2).1 ∧
  w' = mkWorld (fold n (b_win_if_staying b) (b_win_if_switching b) (self w))
         (randint 2 4 (draws 1 4 (Z.to_nat n) (np_random w)).2).2.
Proof.
  intros Hs. destruct (Z.lt_ge_cases n 0) as [Hn|Hn].
  - rewrite sample_negative in Hs by done. discriminate.
  - rewrite sample_nonnegative in Hs by done. cbv zeta in Hs.
    inversion Hs; subst. done.
Qed.

Lemma host_door g : (randint 2 4 g).1 = 2 ∨ (randint 2 4 g).1 = 3.
Proof using randint_range.
  pose proof (randint_range 2 4 g). lia.
Qed.

Lemma host_not_one g : (randint 2 4 g).1 ≠ 1.
Proof using randint_range.
  pose proof (randint_range 2 4 g). lia.
Qed.

(** The two outcome vectors of a batch that [sample] built. *)
Lemma batch_vectors n wd g :
  length wd = Z.to_nat n →
  let b := trial_vectors n wd (randint 2 4 g).1 in
  b_win_if_staying b = (λ p, p =? 1) <$> wd ∧
  b_win_if_switching b = (λ p, negb (p =? 1)) <$> wd.
Proof using randint_range.
  intros Hlen b. split.
  - by apply stay_vector.
  - apply switch_vector, host_not_one.
Qed.

(** Each successful call adds as many wins, over the two strategies, as it
    adds samples. *)
Lemma sample_balance n w b w' :
  sample n w = (Return b, w') →
  num_wins_if_staying (self w') + num_wins_if_switching (self w')
    - samples (self w')
  = num_wins_if_staying (self w) + num_wins_if_switching (self w)
    - samples (self w).
Proof using randint_range.
  intros Hs. apply sample_returns in Hs as (Hn & Hb & ->).
  set (dr := draws 1 4 (Z.to_nat n) (np_random w)) in *.
  destruct (batch_vectors n dr.1 dr.2 (draws_length _ _ _ _)) as [Hst Hsw].
  cbv zeta in Hst, Hsw. rewrite <- Hb in Hst, Hsw.
  cbn [self fold add_wins_if_switching add_wins_if_staying add_samples
       samples num_wins_if_staying num_wins_if_switching].
  rewrite !count_true_trues, Hst, Hsw.
  pose proof (trues_complement (λ p, p =? 1) dr.1) as Hc.
  unfold len in Hc. subst dr. rewrite draws_length in Hc. lia.
Qed.

(** ** The batch of one call *)

(** C1 (partition invariant): a call [sample(n)] with [n >= 1] returns, its
    two outcome vectors have [n] entries each, and at every trial index
    exactly one of [win_if_staying[i]] and [win_if_switching[i]] is true. *)
Theorem sample_partition n w :
  1 ≤ n →
  ∃ b w',
    sample n w = (Return b, w') ∧
    length (b_win_if_staying b) = Z.to_nat n ∧
    length (b_win_if_switching b) = Z.to_nat n ∧
    ∀ i : nat, (i < Z.to_nat n)%nat →
      ∃ st sw,
        b_win_if_staying b !! i = Some st ∧
        b_win_if_switching b !! i = Some sw ∧
        ((st = true ∧ sw = false) ∨ (st = false ∧ sw = true)).
Proof using randint_range.
  intros Hn. rewrite sample_nonnegative by lia. cbv zeta.
  set (dr := draws 1 4 (Z.to_nat n) (np_random w)).
  assert (Hlen : length dr.1 = Z.to_nat n) by apply draws_length.
  destruct (batch_vectors n dr.1 dr.2 Hlen) as [Hst Hsw]. cbv zeta in Hst, Hsw.
  eexists _, _. split; [reflexivity|]. rewrite Hst, Hsw.
  rewrite !length_fmap. split_and!; [done|done|].
  intros i Hi. destruct (lookup_lt_is_Some_2 dr.1 i) as [p Hp]; [lia|].
  exists (p =? 1), (negb (p =? 1)).
  rewrite !list_lookup_fmap, Hp. split_and!; [done|done|].
  destruct (p =? 1); auto.
Qed.

(** C3 (outcome functions): in a batch that [sample] returned, at every
    trial index the prize door is 1, 2 or 3, the stay outcome is true
    exactly when the prize door is 1 and the switch outcome is true exactly
    when the prize door is the switch door; the switch door is the prize
    door when the prize is not behind door 1, so that switching wins, and
    is door 2 or 3 when the prize is behind door 1, so that switching
    loses. *)
Theorem sample_outcomes n w b w' :
  sample n w = (Return b, w') →
  ∀ (i : nat) (p : Z),
    b_winning_doors b !! i = Some p →
    ∃ st sw t,
      b_win_if_staying b !! i = Some st ∧
      b_win_if_switching b !! i = Some sw ∧
      b_switch_doors b !! i = Some t ∧
      (p = 1 ∨ p = 2 ∨ p = 3) ∧
      (st = true ↔ p = 1) ∧
      (sw = true ↔ p = t) ∧
      (p ≠ 1 → t = p ∧ sw = true) ∧
      (p = 1 → (t = 2 ∨ t = 3) ∧ sw = false).
Proof using randint_range.
  intros Hs i p Hp. apply sample_returns in Hs as (Hn & -> & _).
  set (dr := draws 1 4 (Z.to_nat n) (np_random w)) in *.
  set (host := (randint 2 4 dr.2).1) in *.
  assert (Hhost : host = 2 ∨ host = 3) by apply host_door.
  assert (Hlen : length dr.1 = Z.to_nat n) by apply draws_length.
  cbn [b_winning_doors trial_vectors] in Hp.
  assert (Hdoor : 1 ≤ p < 4).
  { pose proof (draws_range 1 4 (Z.to_nat n) (np_random w) ltac:(done)) as Hr.
    rewrite Forall_lookup in Hr. exact (Hr i p Hp). }
  exists (p =? 1), (p =? (if p =? 1 then host else p)),
    (if p =? 1 then host else p).
  rewrite (stay_vector n dr.1 host Hlen), switch_vector_raw, switch_doors_vector.
  rewrite !list_lookup_fmap, Hp. cbn [fmap option_fmap option_map].
  split_and!; try done.
  - lia.
  - apply Z.eqb_eq.
  - apply Z.eqb_eq.
  - intros Hne. destruct (Z.eqb_spec p 1); [done|]. split; [done|]. apply Z.eqb_refl.
  - intros ->. change (1 =? 1) with true. cbv iota.
    split; [done|]. apply Z.eqb_neq. lia.
Qed.

(** ** Runs of calls *)

Lemma sample_grows n w b w' :
  sample n w = (Return b, w') →
  num_wins_if_staying (self w) ≤ num_wins_if_staying (self w') ∧
  num_wins_if_switching (self w) ≤ num_wins_if_switching (self w').
Proof.
  intros Hs. apply sample_returns in Hs as (_ & _ & ->).
  cbn [self fold add_wins_if_switching add_wins_if_staying add_samples
       num_wins_if_staying num_wins_if_switching].
  rewrite !count_true_trues.
  match goal with
  | |- _ ≤ _ + trues ?a ∧ _ ≤ _ + trues ?b =>
      pose proof (trues_bounds a); pose proof (trues_bounds b)
  end. lia.
Qed.

Lemma sample_tally_ok n w b w' :
  tally_ok (self w) → sample n w = (Return b, w') → tally_ok (self w').
Proof using randint_range.
  intros (H1 & H2 & H3) Hs. pose proof (sample_balance _ _ _ _ Hs).
  pose proof (sample_grows _ _ _ _ Hs). unfold tally_ok. lia.
Qed.

Lemma sample_all_tally_ok ns w w' :
  tally_ok (self w) → sample_all ns w = (Return tt, w') → tally_ok (self w').
Proof using randint_range.
  revert w. induction ns as [|n ns IH]; intros w Hok Hrun.
  - inversion Hrun; by subst.
  - cbn [sample_all] in Hrun. unfold bind in Hrun.
    destruct (sample n w) as [[b|e] w1] eqn:Hs; [|discriminate].
    eapply IH; [|exact Hrun]. by eapply sample_tally_ok.
Qed.

Lemma init_tally_ok u : tally_ok (__init__ u).
Proof. unfold tally_ok. simpl. lia. Qed.

(** C2 (conservation invariant): after any finite run of calls of [sample]
    on a newly constructed object, all of which returned, the two win counts
    add up to the number of samples. *)
Theorem sample_all_conservation ns u g w' :
  sample_all ns (mkWorld (__init__ u) g) = (Return tt, w') →
  num_wins_if_staying (self w') + num_wins_if_switching (self w')
  = samples (self w').
Proof using randint_range.
  intros Hrun.
  destruct (sample_all_tally_ok ns (mkWorld (__init__ u) g) w') as (_ & _ & ?);
    [apply init_tally_ok|done|done].
Qed.

(** ** Failing calls *)

Lemma add_samples_zero s : add_samples 0 s = s.
Proof. destruct s. unfold add_samples. f_equal. apply Z.add_0_r. Qed.

Lemma fold_empty s : fold 0 [] [] s = s.
Proof.
  destruct s.
  unfold fold, add_wins_if_switching, add_wins_if_staying, add_samples.
  f_equal; apply Z.add_0_r.
Qed.


(** C5, where the code departs from it: [sample(-5)] on a new object raises
    [ValueError] only after [self.samples += n] has run, so the object is
    left with [samples = -5] and both win counts at 0. *)
Theorem sample_failure_after_mutation u g :
  sample (-5) (mkWorld (__init__ u) g)
  = (Raise ValueError, mkWorld (add_samples (-5) (__init__ u)) g) ∧
  samples (add_samples (-5) (__init__ u)) = -5 ∧
  samples (__init__ u) = 0 ∧
  num_wins_if_staying (add_samples (-5) (__init__ u)) = 0 ∧
  num_wins_if_switching (add_samples (-5) (__init__ u)) = 0 ∧
  ¬ tally_ok (add_samples (-5) (__init__ u)).
Proof.
  split_and!; [by rewrite sample_negative|done..|].
  unfold tally_ok. cbn. intros (_ & _ & Hsum). discriminate Hsum.
Qed.

(** ** Accumulation *)

Lemma fold_accumulated n stay switch s :
  accumulated n stay switch s (fold n stay switch s).
Proof.
  unfold accumulated, fold. rewrite !count_true_trues. by cbn.
Qed.

Lemma fold_fold n1 n2 stay1 switch1 stay2 switch2 s :
  fold n2 stay2 switch2 (fold n1 stay1 switch1 s)
  = fold (n1 + n2) (stay1 ++ stay2) (switch1 ++ switch2) s.
Proof.
  unfold fold, add_wins_if_switching, add_wins_if_staying, add_samples.
  cbn [samples winning_doors win_if_staying win_if_switching
       num_wins_if_staying num_wins_if_switching].
  rewrite !count_true_trues, !trues_app. f_equal; lia.
Qed.

Lemma sample_batch_length n w b w' :
  sample n w = (Return b, w') →
  len (b_winning_doors b) = n ∧
  len (b_switch_doors b) = n ∧
  len (b_win_if_staying b) = n ∧
  len (b_win_if_switching b) = n.
Proof.
  intros Hs. apply sample_returns in Hs as (Hn & -> & _).
  set (dr := draws 1 4 (Z.to_nat n) (np_random w)).
  assert (Hlen : length dr.1 = Z.to_nat n) by apply draws_length.
  rewrite (stay_vector n dr.1 _ Hlen), switch_vector_raw, switch_doors_vector.
  cbn [b_winning_doors trial_vectors]. unfold len.
  rewrite !length_fmap, Hlen. lia.
Qed.

(** C7 (pure accumulation): a call [sample(n)] that returns adds [n] to
    [samples] and, to each win count, the number of true entries of the
    outcome vector of that strategy, each vector having [n] entries; two
    calls in a row leave the object as one fold of the concatenated batch
    would, and from zero totals a batch of 10 with 3 stay wins followed by
    a batch of 20 with 6 stay wins gives 30 samples and 9 stay wins. *)
Theorem sample_accumulates n1 n2 w b1 w1 b2 w2 :
  sample n1 w = (Return b1, w1) →
  sample n2 w1 = (Return b2, w2) →
  (len (b_win_if_staying b1) = n1 ∧ len (b_win_if_switching b1) = n1 ∧
   accumulated n1 (b_win_if_staying b1) (b_win_if_switching b1)
     (self w) (self w1)) ∧
  (len (b_win_if_staying b2) = n2 ∧ len (b_win_if_switching b2) = n2 ∧
   accumulated n2 (b_win_if_staying b2) (b_win_if_switching b2)
     (self w1) (self w2)) ∧
  self w2
  = fold (len (b_win_if_staying (batch_app b1 b2)))
      (b_win_if_staying (batch_app b1 b2))
      (b_win_if_switching (batch_app b1 b2)) (self w) ∧
  (samples (self w) = 0 → num_wins_if_staying (self w) = 0 →
   n1 = 10 → trues (b_win_if_staying b1) = 3 →
   n2 = 20 → trues (b_win_if_staying b2) = 6 →
   samples (self w2) = 30 ∧ num_wins_if_staying (self w2) = 9).
Proof.
  intros Hs1 Hs2.
  destruct (sample_batch_length _ _ _ _ Hs1) as (_ & _ & Hl1 & Hl1').
  destruct (sample_batch_length _ _ _ _ Hs2) as (_ & _ & Hl2 & Hl2').
  apply sample_returns in Hs1 as (Hn1 & _ & Hw1).
  apply sample_returns in Hs2 as (Hn2 & _ & Hw2).
  assert (Hself1 : self w1
    = fold n1 (b_win_if_staying b1) (b_win_if_switching b1) (self w))
    by (by rewrite Hw1).
  assert (Hself2 : self w2
    = fold n2 (b_win_if_staying b2) (b_win_if_switching b2) (self w1))
    by (by rewrite Hw2).
  assert (Hacc1 := fold_accumulated n1 (b_win_if_staying b1)
                     (b_win_if_switching b1) (self w)).
  assert (Hacc2 := fold_accumulated n2 (b_win_if_staying b2)
                     (b_win_if_switching b2) (self w1)).
  rewrite <- Hself1 in Hacc1. rewrite <- Hself2 in Hacc2.
  split_and!; try done.
  - rewrite Hself2, Hself1, fold_fold. cbn [batch_app b_win_if_staying].
    unfold len in *. rewrite length_app. f_equal. lia.
  - intros Hz1 Hz2 -> Ht1 -> Ht2.
    destruct Hacc1 as (Ha & Hb & _), Hacc2 as (Hc & Hd & _). lia.
Qed.

(** ** Determinism and the host's draw *)

(** C8 (determinism): two calls [sample(n)] that start from the same
    generator state, whatever the two objects hold, end alike, raising or
    returning, with the same four vectors and the same generator state;
    and a call changes nothing of its object but the three totals, which
    become the fold of the batch, or [samples] alone when it raises. *)
Theorem sample_deterministic n w1 w2 :
  np_random w1 = np_random w2 →
  (sample n w1).1 = (sample n w2).1 ∧
  np_random (sample n w1).2 = np_random (sample n w2).2 ∧
  winning_doors (self (sample n w1).2) = winning_doors (self w1) ∧
  win_if_staying (self (sample n w1).2) = win_if_staying (self w1) ∧
  win_if_switching (self (sample n w1).2) = win_if_switching (self w1) ∧
  match (sample n w1).1 with
  | Return b =>
      self (sample n w1).2
      = fold n (b_win_if_staying b) (b_win_if_switching b) (self w1)
  | Raise _ => self (sample n w1).2 = add_samples n (self w1)
  end.
Proof.
  intros Hg. destruct (Z.lt_ge_cases n 0) as [Hn|Hn].
  - by rewrite !sample_negative.
  - rewrite !sample_nonnegative by done. cbv zeta. rewrite Hg. by cbn.
Qed.

(** C10 (one host draw per batch): a call [sample(n)] with [0 <= n] makes,
    after the [n] prize draws, exactly one more draw, from {2, 3}; that one
    value is the switch door of every trial whose prize door is 1, the
    prize door being the switch door of every other trial; and either
    value of it gives the same two outcome vectors. *)
Theorem host_drawn_once n w :
  0 ≤ n →
  ∃ b w' wd host,
    sample n w = (Return b, w') ∧
    wd = (draws 1 4 (Z.to_nat n) (np_random w)).1 ∧
    (host, np_random w')
    = randint 2 4 (draws 1 4 (Z.to_nat n) (np_random w)).2 ∧
    (host = 2 ∨ host = 3) ∧
    b = trial_vectors n wd host ∧
    (∀ i : nat, wd !! i = Some 1 → b_switch_doors b !! i = Some host) ∧
    (∀ (i : nat) p, wd !! i = Some p → p ≠ 1 →
       b_switch_doors b !! i = Some p) ∧
    (∀ h, h = 2 ∨ h = 3 →
       b_win_if_staying (trial_vectors n wd h) = b_win_if_staying b ∧
       b_win_if_switching (trial_vectors n wd h) = b_win_if_switching b).
Proof using randint_range.
  intros Hn. rewrite sample_nonnegative by done. cbv zeta.
  set (dr := draws 1 4 (Z.to_nat n) (np_random w)).
  assert (Hlen : length dr.1 = Z.to_nat n) by apply draws_length.
  pose proof (host_door dr.2) as Hhost.
  eexists _, _, dr.1, (randint 2 4 dr.2).1.
  split_and!; [reflexivity|done| |done|done| | |].
  - cbn [np_random]. by destruct (randint 2 4 dr.2).
  - intros i Hi. rewrite switch_doors_vector, list_lookup_fmap, Hi. done.
  - intros i p Hi Hp. rewrite switch_doors_vector, list_lookup_fmap, Hi.
    cbn [fmap option_fmap option_map]. by destruct (Z.eqb_spec p 1).
  - intros h Hh. split.
    + by rewrite !stay_vector.
    + rewrite !switch_vector; [done| lia..].
Qed.

(** ** The report *)

Lemma report_raises (w : world rng) :
  samples (self w) ≤ 0 →
  report w
  = (Raise (Exception "No results to plot. Must sample first."), w).
Proof.
  intros Hz. unfold report, plot_results. unfold_monad.
  by destruct (Z.ltb_spec 0 (samples (self w))); [lia|].
Qed.

Lemma report_returns (w : world rng) :
  0 < samples (self w) →
  report w
  = (Return
       ((inject_Z (num_wins_if_staying (self w))
           / inject_Z (samples (self w)) * 100)%Q,
        (inject_Z (num_wins_if_switching (self w))
           / inject_Z (samples (self w)) * 100)%Q), w).
Proof.
  intros Hpos. unfold report, plot_results, truediv. unfold_monad.
  destruct (Z.ltb_spec 0 (samples (self w))); [|lia].
  by destruct (Z.eqb_spec (samples (self w)) 0); [lia|].
Qed.

Lemma ratio_bounds (k n : Z) :
  0 ≤ k ≤ n → 0 < n → (0 <= inject_Z k / inject_Z n <= 1)%Q.
Proof.
  intros [Hk Hkn] Hn.
  assert (Hn' : (inject_Z 0 < inject_Z n)%Q) by (by rewrite <- Zlt_Qlt).
  change (inject_Z 0) with 0%Q in Hn'.
  split.
  - apply Qle_shift_div_l; [done|]. rewrite Qmult_0_l.
    change 0%Q with (inject_Z 0). by rewrite <- Zle_Qle.
  - apply Qle_shift_div_r; [done|]. rewrite Qmult_1_l. by rewrite <- Zle_Qle.
Qed.


(** The driver terminates normally: its batch of a million trials makes
    [samples] positive, so the report has something to divide by. *)
Lemma main_returns u (w : world rng) :
  ∃ r w', main u w = (Return r, w') ∧ samples (self w') = 1000000.
Proof.
  unfold main, bind, update.
  set (w0 := mkWorld (__init__ u) (np_random w)).
  rewrite (sample_nonnegative 1000000 w0) by done. cbv zeta beta iota.
  set (dr := draws 1 4 (Z.to_nat 1000000) (np_random w0)).
  set (b := trial_vectors 1000000 dr.1 (randint 2 4 dr.2).1).
  set (w1 := mkWorld (fold 1000000 _ _ (self w0)) _).
  assert (Hsamples : samples (self w1) = 1000000) by done.
  rewrite report_returns by (by rewrite Hsamples). eauto.
Qed.

(** ** The scenario of five trials *)

(** C9 (scenario): when the five prize doors drawn by [sample(5)] on a new
    object are 1, 2, 3, 1, 2, the stay outcomes are T, F, F, T, F and the
    switch outcomes their complement F, T, T, F, T; afterwards the object
    holds 2 stay wins, 3 switch wins and 5 samples, and the stay quotient
    is 0.4, which the report returns scaled by 100. *)
Theorem scenario_five u w :
  self w = __init__ u →
  (draws 1 4 5 (np_random w)).1 = [1; 2; 3; 1; 2] →
  ∃ b w' (p_stay p_switch : Q),
    sample 5 w = (Return b, w') ∧
    b_winning_doors b = [1; 2; 3; 1; 2] ∧
    b_win_if_staying b = [true; false; false; true; false] ∧
    b_win_if_switching b = [false; true; true; false; true] ∧
    b_win_if_switching b = negb <$> b_win_if_staying b ∧
    num_wins_if_staying (self w') = 2 ∧
    num_wins_if_switching (self w') = 3 ∧
    samples (self w') = 5 ∧
    truediv (num_wins_if_staying (self w')) (samples (self w'))
      = Return p_stay ∧
    (p_stay == 0.4)%Q ∧
    report w' = (Return ((p_stay * 100)%Q, (p_switch * 100)%Q), w').
Proof using randint_range.
  intros Hself Hdoors. rewrite sample_nonnegative by done. cbv zeta.
  change (Z.to_nat 5) with 5%nat. rewrite Hdoors.
  set (g1 := (draws 1 4 5 (np_random w)).2).
  assert (Hb : b_win_if_staying (trial_vectors 5 [1; 2; 3; 1; 2] (randint 2 4 g1).1)
               = [true; false; false; true; false] ∧
               b_win_if_switching (trial_vectors 5 [1; 2; 3; 1; 2] (randint 2 4 g1).1)
               = [false; true; true; false; true]).
  { destruct (host_door g1) as [-> | ->]; by vm_compute. }
  destruct Hb as [Hst Hsw].
  eexists _, _, _, _.
  split_and!; [reflexivity|done|done|done| | | | | | |].
  - by rewrite Hst, Hsw.
  - rewrite Hst, Hsw, Hself. by vm_compute.
  - rewrite Hst, Hsw, Hself. by vm_compute.
  - rewrite Hself. by vm_compute.
  - rewrite Hst, Hsw, Hself. cbn. reflexivity.
  - reflexivity.
  - rewrite report_returns; rewrite Hst, Hsw, Hself; [|by vm_compute].
    cbn. reflexivity.
Qed.

(** ** Runs of calls, continued *)

Lemma sample_all_balance ns w w' :
  sample_all ns w = (Return tt, w') →
  num_wins_if_staying (self w') + num_wins_if_switching (self w')
    - samples (self w')
  = num_wins_if_staying (self w) + num_wins_if_switching (self w)
    - samples (self w).
Proof using randint_range.
  revert w. induction ns as [|n ns IH]; intros w Hrun.
  - inversion Hrun; by subst.
  - cbn [sample_all] in Hrun. unfold bind in Hrun.
    destruct (sample n w) as [[b|e] w1] eqn:Hs; [|discriminate].
    rewrite (IH w1 Hrun). by eapply sample_balance.
Qed.

Lemma sample_all_sizes ns w w' :
  sample_all ns w = (Return tt, w') →
  Forall (λ n, 0 ≤ n) ns ∧
  samples (self w') = samples (self w) + foldr Z.add 0 ns.
Proof.
  revert w. induction ns as [|n ns IH]; intros w Hrun.
  - inversion Hrun; subst. split; [constructor|]. cbn. lia.
  - cbn [sample_all] in Hrun. unfold bind in Hrun.
    destruct (sample n w) as [[b|e] w1] eqn:Hs; [|discriminate].
    destruct (IH w1 Hrun) as [Hall Hsum].
    apply sample_returns in Hs as (Hn & _ & Hw1).
    split; [by constructor|].
    rewrite Hsum, Hw1. cbn [self fold add_wins_if_switching
      add_wins_if_staying add_samples samples foldr]. lia.
Qed.

(** X4 (totals of a run): when a run of calls of [sample] on a new object
    has returned, no size in it was negative, [samples] is the sum of the
    sizes, and each win count lies between 0 and [samples]. *)
Theorem run_totals ns u g w' :
  sample_all ns (mkWorld (__init__ u) g) = (Return tt, w') →
  Forall (λ n, 0 ≤ n) ns ∧
  samples (self w') = foldr Z.add 0 ns ∧
  0 ≤ num_wins_if_staying (self w') ≤ samples (self w') ∧
  0 ≤ num_wins_if_switching (self w') ≤ samples (self w').
Proof using randint_range.
  intros Hrun.
  destruct (sample_all_sizes _ _ _ Hrun) as [Hall Hsum].
  destruct (sample_all_tally_ok ns (mkWorld (__init__ u) g) w')
    as (Hst & Hsw & Hbal); [apply init_tally_ok|done|].
  cbn [self __init__ samples] in Hsum.
  split; [done|]. split; [lia|]. lia.
Qed.

(** X7 (attributes left alone): whatever the sizes, and whether the run
    returns or stops at a raise, a run of calls of [sample] leaves the
    three array attributes of the object as it found them; the vectors of
    a batch are not kept. *)
Theorem run_keeps_array_attributes ns w :
  winning_doors (self (sample_all ns w).2) = winning_doors (self w) ∧
  win_if_staying (self (sample_all ns w).2) = win_if_staying (self w) ∧
  win_if_switching (self (sample_all ns w).2) = win_if_switching (self w).
Proof.
  revert w. induction ns as [|n ns IH]; intros w; [done|].
  cbn [sample_all]. unfold bind.
  destruct (Z.lt_ge_cases n 0) as [Hn|Hn].
  - by rewrite sample_negative.
  - rewrite sample_nonnegative by done. cbv zeta.
    set (w1 := mkWorld (fold n _ _ _) _). destruct (IH w1) as (H1 & H2 & H3).
    by rewrite H1, H2, H3.
Qed.

(** X8 (a failed call is not undone): once a call [sample(n)] with a
    negative [n] has raised, however many returning calls follow it, the
    two win counts exceed [samples] by [-n] more than they did before, so
    that totals that added up before the failed call do not add up
    afterwards. *)
Theorem failed_call_offsets_totals n w e w1 ns w2 :
  n < 0 →
  sample n w = (Raise e, w1) →
  sample_all ns w1 = (Return tt, w2) →
  num_wins_if_staying (self w2) + num_wins_if_switching (self w2)
    - samples (self w2)
  = num_wins_if_staying (self w) + num_wins_if_switching (self w)
    - samples (self w) - n ∧
  (tally_ok (self w) → ¬ tally_ok (self w2)).
Proof using randint_range.
  intros Hn Hs Hrun.
  rewrite sample_negative in Hs by done. inversion Hs; subst e w1.
  pose proof (sample_all_balance _ _ _ Hrun) as Hbal.
  cbn [self add_samples samples num_wins_if_staying
       num_wins_if_switching] in Hbal.
  split; [lia|]. intros (_ & _ & H1) (_ & _ & H2). lia.
Qed.

(** ** The tally and the doors *)

Lemma trues_eq_scalar (wd : list Z) :
  trues ((λ p, p =? 1) <$> wd) = Z.of_nat (count_occ Z.eq_dec wd 1).
Proof.
  unfold trues. f_equal. induction wd as [|p wd IH]; [done|].
  cbn [fmap list_fmap count_occ].
  destruct (Z.eqb_spec p 1) as [->|Hp].
  - destruct (bool_dec true true); [|done].
    destruct (Z.eq_dec 1 1); [|done]. by f_equal.
  - destruct (bool_dec false true); [done|].
    by destruct (Z.eq_dec p 1).
Qed.

(** X5 (the tally follows the prize doors): a call of [sample] that
    returns adds to the stay wins the number of trials whose prize is
    behind door 1 and to the switch wins the number of all other trials,
    whatever the host drew. *)
Theorem tally_follows_prize_doors n w b w' :
  sample n w = (Return b, w') →
  num_wins_if_staying (self w')
  = num_wins_if_staying (self w)
    + Z.of_nat (count_occ Z.eq_dec (b_winning_doors b) 1) ∧
  num_wins_if_switching (self w')
  = num_wins_if_switching (self w)
    + (n - Z.of_nat (count_occ Z.eq_dec (b_winning_doors b) 1)).
Proof using randint_range.
  intros Hs. apply sample_returns in Hs as (Hn & Hb & ->).
  set (dr := draws 1 4 (Z.to_nat n) (np_random w)) in *.
  assert (Hlen : length dr.1 = Z.to_nat n) by apply draws_length.
  destruct (batch_vectors n dr.1 dr.2 Hlen) as [Hst Hsw].
  cbv zeta in Hst, Hsw. rewrite <- Hb in Hst, Hsw.
  assert (Hwd : b_winning_doors b = dr.1) by (by rewrite Hb).
  cbn [self fold add_wins_if_switching add_wins_if_staying add_samples
       num_wins_if_staying num_wins_if_switching].
  rewrite !count_true_trues, Hst, Hsw, Hwd.
  pose proof (trues_complement (λ p, p =? 1) dr.1) as Hc.
  rewrite trues_eq_scalar in *. unfold len in Hc. rewrite Hlen in Hc. lia.
Qed.

(** X6 (the switch door): in a batch that [sample] returned there is one
    switch door per trial, and it is door 2 or door 3, never door 1, the
    door the contestant stays on. *)
Theorem switch_door_is_two_or_three n w b w' :
  sample n w = (Return b, w') →
  len (b_switch_doors b) = n ∧
  Forall (λ t, t = 2 ∨ t = 3) (b_switch_doors b).
Proof using randint_range.
  intros Hs. split; [by destruct (sample_batch_length _ _ _ _ Hs) as (_ & ? & _)|].
  apply sample_returns in Hs as (Hn & -> & _).
  set (dr := draws 1 4 (Z.to_nat n) (np_random w)).
  pose proof (host_door dr.2) as Hhost.
  pose proof (draws_range 1 4 (Z.to_nat n) (np_random w) ltac:(done)) as Hr.
  rewrite switch_doors_vector. apply Forall_fmap.
  eapply Forall_impl; [exact Hr|]. intros p Hp. unfold compose. cbv beta in Hp.
  destruct (Z.eqb_spec p 1); [exact Hhost|lia].
Qed.

(** ** Plotting and reporting *)

(** X1 (the report on any object): the report raises the exception of
    [plot_results] exactly when [samples] is not positive, negative values
    included; it never raises [ZeroDivisionError]; and it leaves the object
    and the generator as they were. *)
Theorem report_outcome (w : world rng) :
  (report w).2 = w ∧
  ((report w).1
     = Raise (Exception "No results to plot. Must sample first.")
   ↔ samples (self w) ≤ 0) ∧
  (report w).1 ≠ Raise ZeroDivisionError.
Proof.
  destruct (Z.lt_ge_cases 0 (samples (self w))) as [Hpos|Hneg].
  - rewrite report_returns by done. cbn [fst snd].
    split_and!; [done| |done]. split; [discriminate|lia].
  - rewrite report_raises by done. cbn [fst snd]. by split_and!.
Qed.

(** X2 (sampling, then plotting, on a new object): when [sample(n)] on a
    new object has returned, the [plot_results()] that follows returns if
    [n >= 1] and raises its exception otherwise, the object being as the
    sample left it; and [sample(0)] does return, so that [sample(0)]
    followed by [plot_results()] raises that exception. *)
Theorem sample_then_plot u g n b w1 :
  sample n (mkWorld (__init__ u) g) = (Return b, w1) →
  (sample n ;;; plot_results) (mkWorld (__init__ u) g)
  = (if 0 <? n then Return tt
     else Raise (Exception "No results to plot. Must sample first."), w1) ∧
  (sample 0 ;;; plot_results) (mkWorld (__init__ u) g)
  = (Raise (Exception "No results to plot. Must sample first."),
     mkWorld (__init__ u) (randint 2 4 g).2).
Proof.
  intros Hs. split.
  - unfold bind. rewrite Hs.
    apply sample_returns in Hs as (Hn & _ & ->).
    unfold plot_results. unfold_monad.
    set (w1 := mkWorld (fold n _ _ _) _).
    assert (Hsamples : samples (self w1) = n) by apply Z.add_0_l.
    rewrite Hsamples. by destruct (0 <? n).
  - unfold bind. rewrite sample_nonnegative by done. cbv zeta.
    change (Z.to_nat 0) with 0%nat. cbn [draws fst snd np_random].
    cbn [trial_vectors np_where np_eq_scalar np_eq np_ones fmap list_fmap
         zip_with b_win_if_staying b_win_if_switching].
    change (Z.to_nat 0) with 0%nat. cbn [replicate zip_with].
    by rewrite fold_empty.
Qed.

Lemma percentage_bounds (r : Q) :
  (0 <= r <= 1)%Q → (0 <= r * 100 <= 100)%Q.
Proof.
  intros [H0 H1]. split.
  - apply Qmult_le_0_compat; [done|]. by compute.
  - change 100%Q with (1 * 100)%Q at 2.
    apply Qmult_le_compat_r; [done|]. by compute.
Qed.

(** The report on totals that add up. *)
Lemma report_of_tally (w : world rng) :
  tally_ok (self w) → 0 < samples (self w) →
  ∃ p q : Q,
    report w = (Return (p, q), w) ∧
    (0 <= p <= 100)%Q ∧ (0 <= q <= 100)%Q.
Proof.
  intros (Hst & Hsw & Hsum) Hpos. rewrite report_returns by done.
  eexists _, _. split; [reflexivity|].
  split; apply percentage_bounds, ratio_bounds; lia.
Qed.

(** X3 (the driver): whatever the generator does and whatever object was
    there before, the driver returns: its own new object ends with a
    million samples and win counts that add up to a million, and each of
    the two percentages lies between 0 and 100. *)
Theorem main_prints u (w : world rng) :
  ∃ (p q : Q) w',
    main u w = (Return (p, q), w') ∧
    samples (self w') = 1000000 ∧
    num_wins_if_staying (self w') + num_wins_if_switching (self w')
    = 1000000 ∧
    (0 <= p <= 100)%Q ∧ (0 <= q <= 100)%Q.
Proof using randint_range.
  unfold main, bind, update.
  set (w0 := mkWorld (__init__ u) (np_random w)).
  destruct (sample 1000000 w0) as [[b|e] w1] eqn:Hs.
  - assert (Hok : tally_ok (self w1)).
    { eapply sample_tally_ok; [|exact Hs]. apply init_tally_ok. }
    apply sample_returns in Hs as (_ & _ & Hw1).
    assert (Hsamples : samples (self w1) = 1000000) by (by rewrite Hw1).
    destruct (report_of_tally w1 Hok) as (p & q & Hrep & Hp & Hq);
      [by rewrite Hsamples|].
    exists p, q, w1. rewrite Hrep.
    destruct Hok as (_ & _ & Hbal). rewrite Hsamples in Hbal. done.
  - rewrite sample_nonnegative in Hs by done. discriminate.
Qed.

End WithGenerator.

(** ** The tape generator at work *)

(** The tape generator keeps the range contract of [randint]. *)
Lemma tape_randint_range lo hi t :
  lo < hi → lo ≤ (tape_randint lo hi t).1 < hi.
Proof.
  intros Hlt. destruct t as [|x t]; cbn [tape_randint fst]; [lia|].
  pose proof (Z.mod_pos_bound x (hi - lo)). lia.
Defined.

(** The partition of a batch of three trials. *)
Lemma sample_partition_witness :
  1 ≤ 3 ∧
  ∃ b w',
    sample tape_randint 3 (fresh [0; 1; 2; 1]) = (Return b, w') ∧
    length (b_win_if_staying b) = Z.to_nat 3 ∧
    length (b_win_if_switching b) = Z.to_nat 3 ∧
    ∀ i : nat, (i < Z.to_nat 3)%nat →
      ∃ st sw,
        b_win_if_staying b !! i = Some st ∧
        b_win_if_switching b !! i = Some sw ∧
        ((st = true ∧ sw = false) ∨ (st = false ∧ sw = true)).
Proof.
  split; [lia|].
  apply (sample_partition tape_randint tape_randint_range 3
           (fresh [0; 1; 2; 1])).
  lia.
Defined.

(** Conservation over the run [sample(2)], [sample(0)], [sample(3)]. *)
Lemma sample_all_conservation_witness :
  ∃ w',
    sample_all tape_randint [2; 0; 3] (fresh [0; 1; 0; 5; 2; 0; 1; 1])
      = (Return tt, w') ∧
    samples (self w') = 5 ∧
    num_wins_if_staying (self w') + num_wins_if_switching (self w')
    = samples (self w').
Proof.
  eexists. split; [vm_compute; reflexivity|]. split; [reflexivity|].
  apply (sample_all_conservation tape_randint tape_randint_range
           [2; 0; 3] no_junk [0; 1; 0; 5; 2; 0; 1; 1]).
  vm_compute; reflexivity.
Defined.

(** The outcomes of a batch with the prize doors 1, 2, 3. *)
Lemma sample_outcomes_witness :
  ∃ b w',
    sample tape_randint 3 (fresh [0; 1; 2; 1]) = (Return b, w') ∧
    b_winning_doors b = [1; 2; 3] ∧
    ∀ (i : nat) (p : Z),
      b_winning_doors b !! i = Some p →
      ∃ st sw t,
        b_win_if_staying b !! i = Some st ∧
        b_win_if_switching b !! i = Some sw ∧
        b_switch_doors b !! i = Some t ∧
        (p = 1 ∨ p = 2 ∨ p = 3) ∧
        (st = true ↔ p = 1) ∧
        (sw = true ↔ p = t) ∧
        (p ≠ 1 → t = p ∧ sw = true) ∧
        (p = 1 → (t = 2 ∨ t = 3) ∧ sw = false).
Proof.
  eexists _, _. split; [vm_compute; reflexivity|]. split; [reflexivity|].
  eapply (sample_outcomes tape_randint tape_randint_range 3
            (fresh [0; 1; 2; 1])).
  vm_compute; reflexivity.
Defined.





(** Accumulation over a batch of 10 with 3 stay wins followed by a batch
    of 20 with 6 stay wins. *)
Lemma sample_accumulates_witness :
  ∃ b1 w1 b2 w2,
    sample tape_randint 10 (fresh tape_thirty) = (Return b1, w1) ∧
    sample tape_randint 20 w1 = (Return b2, w2) ∧
    trues (b_win_if_staying b1) = 3 ∧
    trues (b_win_if_staying b2) = 6 ∧
    samples (self w2) = 30 ∧
    num_wins_if_staying (self w2) = 9.
Proof.
  lazymatch eval vm_compute in (sample tape_randint 10 (fresh tape_thirty)) with
  | (Return ?b1, ?w1) =>
      lazymatch eval vm_compute in (sample tape_randint 20 w1) with
      | (Return ?b2, ?w2) =>
          exists b1, w1, b2, w2;
          split; [reflexivity|]; split; [reflexivity|];
          split; [reflexivity|]; split; [reflexivity|];
          exact (proj2 (proj2 (proj2
            (sample_accumulates tape_randint 10 20 (fresh tape_thirty)
               b1 w1 b2 w2 eq_refl eq_refl)))
            eq_refl eq_refl eq_refl eq_refl eq_refl eq_refl)
      end
  end.
Defined.

(** Determinism on a new and on a used object over one tape. *)
Lemma sample_deterministic_witness :
  np_random (fresh tape_five) = np_random (used tape_five) ∧
  (sample tape_randint 5 (fresh tape_five)).1
  = (sample tape_randint 5 (used tape_five)).1 ∧
  np_random (sample tape_randint 5 (fresh tape_five)).2
  = np_random (sample tape_randint 5 (used tape_five)).2.
Proof.
  split; [reflexivity|].
  pose proof (sample_deterministic tape_randint 5 (fresh tape_five)
                (used tape_five) eq_refl) as (H1 & H2 & _).
  by split.
Defined.

(** The scenario of five trials on [tape_five]. *)
Lemma scenario_five_witness :
  self (fresh tape_five) = __init__ no_junk ∧
  (draws tape_randint 1 4 5 (np_random (fresh tape_five))).1
  = [1; 2; 3; 1; 2] ∧
  ∃ b w',
    sample tape_randint 5 (fresh tape_five) = (Return b, w') ∧
    b_win_if_staying b = [true; false; false; true; false] ∧
    b_win_if_switching b = [false; true; true; false; true] ∧
    num_wins_if_staying (self w') = 2 ∧
    num_wins_if_switching (self w') = 3 ∧
    samples (self w') = 5.
Proof.
  split; [reflexivity|]. split; [reflexivity|].
  destruct (scenario_five tape_randint tape_randint_range no_junk
              (fresh tape_five) eq_refl eq_refl)
    as (b & w' & _ & _ & Hs & _ & Hst & Hsw & _ & H2 & H3 & H5 & _).
  by exists b, w'.
Defined.

(** The host's single draw in a batch with two prizes behind door 1. *)
Lemma host_drawn_once_witness :
  0 ≤ 3 ∧
  ∃ b w' host,
    sample tape_randint 3 (fresh [0; 1; 0; 1]) = (Return b, w') ∧
    (host = 2 ∨ host = 3) ∧
    b_winning_doors b = [1; 2; 1] ∧
    (∀ i : nat, b_winning_doors b !! i = Some 1 →
       b_switch_doors b !! i = Some host).
Proof.
  split; [lia|].
  destruct (host_drawn_once tape_randint tape_randint_range 3
              (fresh [0; 1; 0; 1]) ltac:(lia))
    as (b & w' & wd & host & Hs & Hwd & _ & Hhost & Hb & Hone & _).
  exists b, w', host. split; [done|]. split; [done|].
  assert (Hdoors : b_winning_doors b = wd) by (by rewrite Hb).
  split; [by rewrite Hdoors, Hwd|].
  by rewrite Hdoors.
Defined.

(** The totals of the run [sample(2)], [sample(0)], [sample(3)]. *)
Lemma run_totals_witness :
  ∃ w',
    sample_all tape_randint [2; 0; 3] (fresh [0; 1; 0; 5; 2; 0; 1; 1])
      = (Return tt, w') ∧
    Forall (λ n, 0 ≤ n) [2; 0; 3] ∧
    samples (self w') = foldr Z.add 0 [2; 0; 3] ∧
    0 ≤ num_wins_if_staying (self w') ≤ samples (self w') ∧
    0 ≤ num_wins_if_switching (self w') ≤ samples (self w').
Proof.
  eexists. split; [vm_compute; reflexivity|].
  apply (run_totals tape_randint tape_randint_range
           [2; 0; 3] no_junk [0; 1; 0; 5; 2; 0; 1; 1]).
  vm_compute; reflexivity.
Defined.

(** A failed [sample(-5)] on a new object, then a returning [sample(5)]:
    five wins against zero samples. *)
Lemma failed_call_offsets_totals_witness :
  ∃ w1 w2,
    -5 < 0 ∧
    sample tape_randint (-5) (fresh tape_five) = (Raise ValueError, w1) ∧
    sample_all tape_randint [5] w1 = (Return tt, w2) ∧
    samples (self w2) = 0 ∧
    num_wins_if_staying (self w2) + num_wins_if_switching (self w2)
      - samples (self w2)
    = num_wins_if_staying (self (fresh tape_five))
      + num_wins_if_switching (self (fresh tape_five))
      - samples (self (fresh tape_five)) - -5 ∧
    ¬ tally_ok (self w2).
Proof.
  lazymatch eval vm_compute in (sample tape_randint (-5) (fresh tape_five)) with
  | (_, ?w1) =>
      lazymatch eval vm_compute in (sample_all tape_randint [5] w1) with
      | (_, ?w2) =>
          exists w1, w2;
          split; [lia|];
          split; [reflexivity|]; split; [reflexivity|];
          split; [reflexivity|];
          pose proof (failed_call_offsets_totals tape_randint
                        tape_randint_range (-5) (fresh tape_five)
                        ValueError w1 [5] w2 ltac:(lia) eq_refl eq_refl)
            as (Hoff & Hbad);
          split; [exact Hoff|exact (Hbad (init_tally_ok no_junk))]
      end
  end.
Defined.

(** The tally of the five trials of [tape_five]: two prizes behind door 1. *)
Lemma tally_follows_prize_doors_witness :
  ∃ b w',
    sample tape_randint 5 (fresh tape_five) = (Return b, w') ∧
    b_winning_doors b = [1; 2; 3; 1; 2] ∧
    num_wins_if_staying (self w')
    = num_wins_if_staying (self (fresh tape_five))
      + Z.of_nat (count_occ Z.eq_dec (b_winning_doors b) 1) ∧
    num_wins_if_switching (self w')
    = num_wins_if_switching (self (fresh tape_five))
      + (5 - Z.of_nat (count_occ Z.eq_dec (b_winning_doors b) 1)).
Proof.
  eexists _, _. split; [vm_compute; reflexivity|]. split; [reflexivity|].
  eapply (tally_follows_prize_doors tape_randint tape_randint_range 5
            (fresh tape_five)).
  vm_compute; reflexivity.
Defined.

(** The switch doors of the five trials of [tape_five]. *)
Lemma switch_door_is_two_or_three_witness :
  ∃ b w',
    sample tape_randint 5 (fresh tape_five) = (Return b, w') ∧
    b_switch_doors b = [3; 2; 3; 3; 2] ∧
    len (b_switch_doors b) = 5 ∧
    Forall (λ t, t = 2 ∨ t = 3) (b_switch_doors b).
Proof.
  eexists _, _. split; [vm_compute; reflexivity|]. split; [reflexivity|].
  eapply (switch_door_is_two_or_three tape_randint tape_randint_range 5
            (fresh tape_five)).
  vm_compute; reflexivity.
Defined.

(** A new object, [sample(3)], then [plot_results()]. *)
Lemma sample_then_plot_witness :
  ∃ b w1,
    sample tape_randint 3 (fresh [0; 1; 2; 1]) = (Return b, w1) ∧
    (sample tape_randint 3 ;;; plot_results) (fresh [0; 1; 2; 1])
    = (Return tt, w1) ∧
    (sample tape_randint 0 ;;; plot_results) (fresh [0; 1; 2; 1])
    = (Raise (Exception "No results to plot. Must sample first."),
       fresh [1; 2; 1]).
Proof.
  eexists _, _. split; [vm_compute; reflexivity|].
  eapply (sample_then_plot tape_randint no_junk [0; 1; 2; 1] 3).
  vm_compute; reflexivity.
Defined.

(** The driver over the tape generator. *)
Lemma main_prints_witness :
  ∃ (p q : Q) w',
    main tape_randint no_junk (fresh []) = (Return (p, q), w') ∧
    samples (self w') = 1000000 ∧
    num_wins_if_staying (self w') + num_wins_if_switching (self w')
    = 1000000 ∧
    (0 <= p <= 100)%Q ∧ (0 <= q <= 100)%Q.
Proof.
  exact (main_prints tape_randint tape_randint_range no_junk (fresh [])).
Defined.
